(** * a2a-foundry-agent: the bearer-token adapter and the two sample scripts

    A shallow embedding of
      samples/agent-catalog/a2a-foundry-agent/basic_agent_a2a.py
      samples/agent-catalog/a2a-foundry-agent/agent_a2a_with_tools.py

    The class [AzureTokenAuth] is the same text in both files; it is
    embedded once.  The two [main] coroutines are embedded as programs of
    a state-and-exception monad whose state is the log of observable
    actions (environment reads, SDK calls, console lines).  Everything
    the scripts call but do not define (the credential, the agents
    service, the HTTP transport, pydantic) is a field of [World]. *)

From stdpp Require Import base option list strings gmap.
From Stdlib Require Import Ascii String ZArith Lia.

Local Open Scope string_scope.
Local Open Scope list_scope.

(** ** Python exceptions the scripts can meet *)

Inductive exn : Type :=
| RuntimeError (msg : string)
| IndexError
| KeyError (key : string)
| TypeError (keyword : string)
| AttributeError (attr : string)
| ClientAuthenticationError
| ServiceError (detail : string).

Definition result (A : Type) : Type := (exn + A)%type.

(** ** A state-and-exception monad

    A computation runs from a state to a result and the state reached;
    after a raise the state is the one at the raising statement. *)

Module Monad.

Definition M (S A : Type) : Type := S -> result A * S.

Definition ret {S A} (a : A) : M S A := fun s => (inr a, s).

Definition raise {S A} (e : exn) : M S A := fun s => (inl e, s).

Definition bind {S A B} (m : M S A) (k : A -> M S B) : M S B :=
  fun s =>
    match m s with
    | (inr a, s') => k a s'
    | (inl e, s') => (inl e, s')
    end.

Definition get {S} : M S S := fun s => (inr s, s).

Definition modify {S} (f : S -> S) : M S unit := fun s => (inr tt, f s).

(** [lift_result r] is an expression that evaluates to [a] or raises. *)
Definition lift_result {S A} (r : result A) : M S A := fun s => (r, s).

(** [try_finally body cleanup]: the exit of a [with] block. The cleanup
    runs on both ways out and the exception, if any, is re-raised. *)
Definition try_finally {S A} (body : M S A) (cleanup : M S unit) : M S A :=
  fun s =>
    match body s with
    | (r, s') =>
        match cleanup s' with
        | (inr _, s'') => (r, s'')
        | (inl e, s'') => (inl e, s'')
        end
    end.

End Monad.

Import Monad.

Declare Scope py_scope.
Delimit Scope py_scope with py.
Notation "x <- m ;; k" := (bind m (fun x => k))
  (at level 100, m at next level, k at level 200, right associativity) : py_scope.
Notation "m ;; k" := (bind m (fun _ => k))
  (at level 100, k at level 200, right associativity) : py_scope.
Local Open Scope py_scope.

(** ** Values of the external libraries *)

(** [azure.core.credentials.AccessToken]. *)
Record AccessToken : Type := { token : string; expires_on : Z }.

(** A [TokenCredential] / [AsyncTokenCredential]: [get_token scope]
    answers with a token or raises (the azure-identity credentials raise
    [ClientAuthenticationError]); [None] stands for the raise. *)
Record Credential : Type := { get_token : string -> option AccessToken }.

(** [httpx.Headers]: an ordered multi-map whose keys compare without
    regard to ASCII case. *)
Definition Headers : Type := list (string * string).

Definition ascii_lower (c : ascii) : ascii :=
  let n := nat_of_ascii c in
  if (65 <=? n)%nat && (n <=? 90)%nat then ascii_of_nat (n + 32) else c.

Fixpoint lower (s : string) : string :=
  match s with
  | EmptyString => EmptyString
  | String c rest => String (ascii_lower c) (lower rest)
  end.

Definition key_matches (key : string) (item : string * string) : bool :=
  String.eqb (lower (fst item)) (lower key).

(** [Headers.__setitem__]: the first entry with the key is overwritten
    in place, later entries with the key are deleted, and a key that is
    absent is appended. *)
Fixpoint headers_setitem (h : Headers) (key value : string) : Headers :=
  match h with
  | [] => [(key, value)]
  | item :: rest =>
      if key_matches key item
      then (key, value) :: List.filter (fun i => negb (key_matches key i)) rest
      else item :: headers_setitem rest key value
  end.

(** [Headers.get_list]: the values stored under a key, in order. *)
Definition headers_get_list (h : Headers) (key : string) : list string :=
  map snd (List.filter (fun i => key_matches key i) h).

(** The entries stored under any other key, in order. *)
Definition headers_without (h : Headers) (key : string) : Headers :=
  List.filter (fun i => negb (key_matches key i)) h.

(** [httpx.Request], the object handed to an auth flow; [content] is
    the encoded body. *)
Record Request : Type := {
  method : string;
  url : string;
  headers : Headers;
  content : string
}.

Definition with_headers (r : Request) (h : Headers) : Request :=
  {| method := method r; url := url r; headers := h; content := content r |}.

(** ** AzureTokenAuth *)

Record AzureTokenAuth : Type := {
  token_provider : option Credential;
  async_token_provider : option Credential;
  scopes : list string
}.

(** [__init__(self, scopes, token_provider=None, async_token_provider=None)] *)
Definition AzureTokenAuth_init (scopes : list string)
    (token_provider async_token_provider : option Credential) : AzureTokenAuth :=
  {| token_provider := token_provider;
     async_token_provider := async_token_provider;
     scopes := scopes |}.

(** What a flow does to the world, in order. *)
Inductive flow_event : Type :=
| GetToken (scope : string)
| SetHeader (key value : string).

(** The state an auth flow works on: the request object it was given
    (mutated in place) and the log of its actions. *)
Record FlowState : Type := {
  request_obj : Request;
  flow_log : list flow_event
}.

Definition FlowM (A : Type) : Type := M FlowState A.

Definition flow_emit (e : flow_event) : FlowM unit :=
  modify (fun st => {| request_obj := request_obj st;
                       flow_log := flow_log st ++ [e] |}).

(** [_raise_no_token_maybe(self, token, text)] *)
Definition _raise_no_token_maybe {S} (token : option Credential) (text : string)
    : M S unit :=
  match token with
  | None => raise (RuntimeError ("No " +:+ text +:+ " token provider were supplied."))
  | Some _ => ret tt
  end.

(** [provider.get_token]: attribute lookup on the provider; on [None]
    Python raises [AttributeError]. *)
Definition attr_get_token {S} (provider : option Credential) : M S Credential :=
  match provider with
  | None => raise (AttributeError "get_token")
  | Some c => ret c
  end.

(** [self.scopes[0]] *)
Definition scopes_0 {S} (self : AzureTokenAuth) : M S string :=
  match scopes self with
  | [] => raise IndexError
  | s :: _ => ret s
  end.

(** The call [c.get_token(scope)], awaited or not. *)
Definition call_get_token (c : Credential) (scope : string) : FlowM AccessToken :=
  flow_emit (GetToken scope) ;;
  match get_token c scope with
  | None => raise ClientAuthenticationError
  | Some t => ret t
  end.

(** [request.headers[key] = value] *)
Definition request_headers_setitem (key value : string) : FlowM unit :=
  flow_emit (SetHeader key value) ;;
  modify (fun st =>
    {| request_obj := with_headers (request_obj st)
                        (headers_setitem (headers (request_obj st)) key value);
       flow_log := flow_log st |}).

(** The statements of [sync_auth_flow] before its [yield]. *)
Definition sync_auth_flow_body (self : AzureTokenAuth) : FlowM unit :=
  _raise_no_token_maybe (token_provider self) "synchronous" ;;
  c <- attr_get_token (token_provider self) ;;
  scope <- scopes_0 self ;;
  t <- call_get_token c scope ;;
  request_headers_setitem "Authorization" ("Bearer " +:+ token t).

(** The statements of [async_auth_flow] before its [yield]. *)
Definition async_auth_flow_body (self : AzureTokenAuth) : FlowM unit :=
  _raise_no_token_maybe (async_token_provider self) "asynchronous" ;;
  c <- attr_get_token (async_token_provider self) ;;
  scope <- scopes_0 self ;;
  t <- call_get_token c scope ;;
  request_headers_setitem "Authorization" ("Bearer " +:+ token t).

(** *** The flows as generators

    Both flows are generators with one [yield]. A generator is a program
    counter; [next] runs it to its next suspension. *)

Inductive gen_pc : Type := AtStart | AtYield | Finished.

Inductive gen_result : Type :=
| Yield (r : Request)
| Raise (e : exn)
| StopIteration.

Definition gen_next (body : FlowM unit) (pc : gen_pc) (st : FlowState)
    : gen_result * gen_pc * FlowState :=
  match pc with
  | AtStart =>
      match body st with
      | (inr _, st') => (Yield (request_obj st'), AtYield, st')
      | (inl e, st') => (Raise e, Finished, st')
      end
  | AtYield => (StopIteration, Finished, st)
  | Finished => (StopIteration, Finished, st)
  end.

Definition sync_auth_flow (self : AzureTokenAuth) := gen_next (sync_auth_flow_body self).
Definition async_auth_flow (self : AzureTokenAuth) := gen_next (async_auth_flow_body self).

(** The first [next()] on a fresh flow over [request]. *)
Definition start_flow (flow : gen_pc -> FlowState -> gen_result * gen_pc * FlowState)
    (request : Request) : gen_result * gen_pc * FlowState :=
  flow AtStart {| request_obj := request; flow_log := [] |}.

Definition outcome (x : gen_result * gen_pc * FlowState) : gen_result := fst (fst x).
Definition final_request (x : gen_result * gen_pc * FlowState) : Request :=
  request_obj (snd x).
Definition final_log (x : gen_result * gen_pc * FlowState) : list flow_event :=
  flow_log (snd x).

Definition is_runtime_error (g : gen_result) : bool :=
  match g with
  | Raise (RuntimeError _) => true
  | _ => false
  end.

(** ** pydantic models and [model_dump] *)

(** A Python value as pydantic sees it; a model instance is the [PDict]
    of its fields. *)
#[warnings="-register-all"] Inductive pyval : Type :=
| PNone
| PBool (b : bool)
| PInt (n : Z)
| PStr (s : string)
| PList (items : list pyval)
| PDict (fields : list (string * pyval)).

(** The dump itself: with [exclude_none] the fields whose value is
    [None] are left out, at every depth. *)
Fixpoint dump (exclude_none : bool) (v : pyval) : pyval :=
  match v with
  | PList items => PList (map (dump exclude_none) items)
  | PDict fields =>
      PDict ((fix dump_fields (fs : list (string * pyval)) : list (string * pyval) :=
                match fs with
                | [] => []
                | (k, PNone) :: rest =>
                    if exclude_none then dump_fields rest
                    else (k, PNone) :: dump_fields rest
                | (k, x) :: rest => (k, dump exclude_none x) :: dump_fields rest
                end) fields)
  | _ => v
  end.

(** The keyword-only parameters of [BaseModel.model_dump]; it has no
    catch-all for further keywords. *)
Definition model_dump_parameters : list string :=
  [ "mode"; "include"; "exclude"; "context"; "by_alias"; "exclude_unset";
    "exclude_defaults"; "exclude_none"; "exclude_computed_fields"; "round_trip";
    "warnings"; "fallback"; "serialize_as_any" ].

Definition is_parameter (params : list string) (kw : string * pyval) : bool :=
  existsb (String.eqb (fst kw)) params.

Definition kwarg_true (name : string) (kwargs : list (string * pyval)) : bool :=
  existsb (fun kw => String.eqb (fst kw) name &&
                     match snd kw with PBool true => true | _ => false end) kwargs.

(** The call of [self.model_dump] with keyword arguments: Python binds the keywords to
    the parameters first and raises [TypeError] on one that names no
    parameter; a parameter that is not passed keeps its default, which
    for [exclude_none] is [False]. *)
Definition model_dump (self : pyval) (kwargs : list (string * pyval)) : result pyval :=
  match find (fun kw => negb (is_parameter model_dump_parameters kw)) kwargs with
  | Some kw => inl (TypeError (fst kw))
  | None => inr (dump (kwarg_true "exclude_none" kwargs) self)
  end.

(** ** The objects of the agents SDK, as far as the scripts read them *)

(** A file, vector store, agent, thread or message: the scripts read
    its [id] only. *)
Record Resource : Type := { obj_id : string }.

Record ThreadRun : Type := { status : string; last_error : string }.

(** A thread message: its role and the [text.value] of each of its
    [text_messages]. *)
Record ThreadMessage : Type := { role : string; text_messages : list string }.

Record UUID : Type := { uuid_hex : string; uuid_str : string }.

(** The closure [get_a2a_response] that [get_function] returns, as the
    variables it captures. *)
Record Closure : Type := {
  agent_id : string;
  creds : Credential;
  credential_scopes : list string;
  endpoint : string;
  api_version : string
}.

(** The keyword arguments of [create_agent]. *)
Record AgentSpec : Type := {
  model : string;
  name : string;
  instructions : string;
  tools : list string;
  tool_resources : list string;
  toolset : list Closure
}.

(** ** The world outside the scripts *)

Record World : Type := {
  DefaultAzureCredential : Credential;
  dirname_file : string;
  os_path_join : list string -> string;
  config_credential_scopes : list string;
  config_api_version : string;
  uuid4 : nat -> UUID;
  files_upload_and_poll : string -> string -> result Resource;
  vector_stores_create_and_poll : list string -> string -> result Resource;
  create_agent : AgentSpec -> result Resource;
  threads_create : result Resource;
  messages_create : string -> string -> string -> result Resource;
  runs_create_and_process : list Closure -> string -> string -> result ThreadRun;
  messages_list : string -> string -> result (list ThreadMessage);
  files_delete : string -> result unit;
  vector_stores_delete : string -> result unit;
  delete_agent : string -> result unit;
  httpx_default_headers : Headers;
  json_dumps : pyval -> string;
  repr : pyval -> string;
  transport : Request -> result pyval
}.

(** What a script does that can be observed from outside, in order. *)
Inductive event : Type :=
| Environ (key : string)
| NewCredential
| ClientEnter (endpoint : string)
| ClientExit
| FilesUpload (file_path purpose : string)
| VectorStoreCreate (file_ids : list string) (name : string)
| AgentCreate (spec : AgentSpec)
| EnableAutoFunctionCalls (functions : list Closure)
| ThreadCreate
| MessageCreate (thread_id role content : string)
| RunCreateAndProcess (thread_id agent_id : string)
| MessagesList (thread_id order : string)
| FileDelete (file_id : string)
| VectorStoreDelete (vector_store_id : string)
| AgentDelete (agent_id : string)
| HttpxEnter
| HttpxExit
| Auth (e : flow_event)
| Send (request : Request)
| Print (line : string).

(** The state of a running script: the log so far, the functions the
    agents client will call by itself, and how many uuids were drawn. *)
Record Proc : Type := {
  log : list event;
  auto_functions : list Closure;
  uuids_drawn : nat
}.

Definition Proc0 : Proc := {| log := []; auto_functions := []; uuids_drawn := 0 |}.

Definition ScriptM (A : Type) : Type := M Proc A.

Definition add_log (es : list event) (p : Proc) : Proc :=
  {| log := log p ++ es;
     auto_functions := auto_functions p;
     uuids_drawn := uuids_drawn p |}.

Definition set_auto_functions (functions : list Closure) (p : Proc) : Proc :=
  {| log := log p; auto_functions := functions; uuids_drawn := uuids_drawn p |}.

Definition draw_uuid (p : Proc) : Proc :=
  {| log := log p; auto_functions := auto_functions p;
     uuids_drawn := S (uuids_drawn p) |}.

Definition emit_all (es : list event) : ScriptM unit := modify (add_log es).

Definition emit (e : event) : ScriptM unit := emit_all [e].

(** [print(line)] *)
Definition print (line : string) : ScriptM unit := emit (Print line).

(** An awaited SDK call: it is logged, then it returns or raises. *)
Definition sdk {A} (e : event) (r : result A) : ScriptM A :=
  emit e ;; lift_result r.

(** ** Statements both scripts use *)

(** [os.environ[key]] *)
Definition os_environ (environ : gmap string string) (key : string) : ScriptM string :=
  emit (Environ key) ;;
  match environ !! key with
  | None => raise (KeyError key)
  | Some v => ret v
  end.

(** [DefaultAzureCredential()] *)
Definition new_credential (w : World) : ScriptM Credential :=
  emit NewCredential ;; ret (DefaultAzureCredential w).

(** [uuid.uuid4()] *)
Definition uuid_uuid4 (w : World) : ScriptM UUID :=
  p <- get ;;
  modify draw_uuid ;;
  ret (uuid4 w (uuids_drawn p)).

(** [async with ... :] the block is entered, its body runs, and the
    block is left on both ways out of the body. *)
Definition async_with {A} (enter leave : event) (body : ScriptM A) : ScriptM A :=
  emit enter ;; try_finally body (emit leave).

(** [httpx.AsyncClient] sending [request] under [auth]: it takes the
    request to send out of [auth.async_auth_flow(request)], sends it, and
    gives the response to the flow, which may yield a further request. *)
Definition httpx_send (w : World) (auth : AzureTokenAuth) (request : Request)
    : ScriptM pyval :=
  match start_flow (async_auth_flow auth) request with
  | (Yield r, pc, st) =>
      emit_all (map Auth (flow_log st)) ;;
      response <- sdk (Send r) (transport w r) ;;
      match async_auth_flow auth pc st with
      | (Yield r', _, _) => sdk (Send r') (transport w r')
      | (Raise e, _, _) => raise e
      | (StopIteration, _, _) => ret response
      end
  | (Raise e, _, st) => emit_all (map Auth (flow_log st)) ;; raise e
  | (StopIteration, _, _) => sdk (Send request) (transport w request)
  end.

(** [A2AClient.send_message]: the request model is posted as JSON to
    the client's url. *)
Definition a2a_send_message (w : World) (auth : AzureTokenAuth) (url : string)
    (request : pyval) : ScriptM pyval :=
  httpx_send w auth {| method := "POST"; url := url;
                       headers := httpx_default_headers w;
                       content := json_dumps w request |}.

(** [SendMessageRequest(id=id, params=MessageSendParams( **payload))]
    over the payload both scripts build. *)
Definition SendMessageRequest (id message_id text : string) : pyval :=
  PDict [ ("id", PStr id);
          ("jsonrpc", PStr "2.0");
          ("method", PStr "message/send");
          ("params", PDict [ ("message", PDict [ ("role", PStr "user");
                                                 ("parts", PList [ PDict [ ("kind", PStr "text");
                                                                            ("text", PStr text) ] ]);
                                                 ("messageId", PStr message_id) ]) ]) ].

(** The keywords both scripts pass to [response.model_dump]. *)
Definition dump_keywords : list (string * pyval) :=
  [ ("mode", PStr "json"); ("excluse_none", PBool true) ].

Definition a2a_url (endpoint agent_id api_version : string) : string :=
  endpoint +:+ "/workflows/a2a/agents/" +:+ agent_id +:+ "?api-version=" +:+ api_version.

(** ** basic_agent_a2a.py *)

Module Basic.
Section Script.
Variable environ : gmap string string.
Variable w : World.

Definition main : ScriptM unit :=
  creds <- new_credential w ;;
  endpoint <- os_environ environ "PROJECT_ENDPOINT" ;;
  async_with (ClientEnter endpoint) ClientExit (
    model <- os_environ environ "MODEL_DEPLOYMENT_NAME" ;;
    let spec := {| model := model; name := "my-agent";
                   instructions := "You are helpful agent";
                   tools := []; tool_resources := []; toolset := [] |} in
    agent <- sdk (AgentCreate spec) (create_agent w spec) ;;
    print ("Created agent, agent ID: " +:+ obj_id agent) ;;
    let auth := AzureTokenAuth_init (config_credential_scopes w) None (Some creds) in
    async_with HttpxEnter HttpxExit (
      let url := a2a_url endpoint (obj_id agent) (config_api_version w) in
      message_id <- uuid_uuid4 w ;;
      request_id <- uuid_uuid4 w ;;
      let request := SendMessageRequest (uuid_str request_id) (uuid_hex message_id)
                       "Hello, tell me a joke" in
      response <- a2a_send_message w auth url request ;;
      dumped <- lift_result (model_dump response dump_keywords) ;;
      print (repr w dumped) ;;
      sdk (AgentDelete (obj_id agent)) (delete_agent w (obj_id agent)) ;;
      print "Deleted agent")).

End Script.
End Basic.

(** ** agent_a2a_with_tools.py *)

Module WithTools.

(** [get_function(agent_id, creds, credential_scopes, endpoint, api_version)] *)
Definition get_function (agent_id : string) (creds : Credential)
    (credential_scopes : list string) (endpoint api_version : string) : Closure :=
  {| agent_id := agent_id; creds := creds; credential_scopes := credential_scopes;
     endpoint := endpoint; api_version := api_version |}.

Section Script.
Variable environ : gmap string string.
Variable w : World.

(** The body of the closure: [get_a2a_response(message)]. *)
Definition get_a2a_response (self : Closure) (message : string) : ScriptM pyval :=
  let auth := AzureTokenAuth_init (credential_scopes self) None (Some (creds self)) in
  async_with HttpxEnter HttpxExit (
    let url := a2a_url (endpoint self) (agent_id self) (api_version self) in
    message_id <- uuid_uuid4 w ;;
    request_id <- uuid_uuid4 w ;;
    let request := SendMessageRequest (uuid_str request_id) (uuid_hex message_id) message in
    response <- a2a_send_message w auth url request ;;
    lift_result (model_dump response dump_keywords)).

(** [agents_client.enable_auto_function_calls(toolset)] *)
Definition enable_auto_function_calls (toolset : list Closure) : ScriptM unit :=
  emit (EnableAutoFunctionCalls toolset) ;;
  modify (set_auto_functions toolset).

(** [agents_client.runs.create_and_process(thread_id, agent_id)]; the
    client runs the functions registered with it as the service asks. *)
Definition create_and_process (thread_id agent_id : string) : ScriptM ThreadRun :=
  p <- get ;;
  sdk (RunCreateAndProcess thread_id agent_id)
      (runs_create_and_process w (auto_functions p) thread_id agent_id).

(** The loop [async for msg in messages: ...] *)
Fixpoint log_messages (messages : list ThreadMessage) : ScriptM unit :=
  match messages with
  | [] => ret tt
  | msg :: rest =>
      match last (text_messages msg) with
      | Some last_text => print (role msg +:+ ": " +:+ last_text)
      | None => ret tt
      end ;;
      log_messages rest
  end.

Definition main : ScriptM unit :=
  creds <- new_credential w ;;
  endpoint <- os_environ environ "PROJECT_ENDPOINT" ;;
  async_with (ClientEnter endpoint) ClientExit (
    let asset_file_path :=
      os_path_join w [dirname_file w; "sample_data"; "product_info_1.md"] in
    file <- sdk (FilesUpload asset_file_path "FilePurpose.AGENTS")
                (files_upload_and_poll w asset_file_path "FilePurpose.AGENTS") ;;
    print ("Uploaded file, file ID: " +:+ obj_id file) ;;
    vector_store <- sdk (VectorStoreCreate [obj_id file] "my_vectorstore")
                        (vector_stores_create_and_poll w [obj_id file] "my_vectorstore") ;;
    print ("Created vector store, vector store ID: " +:+ obj_id vector_store) ;;
    model1 <- os_environ environ "MODEL_DEPLOYMENT_NAME" ;;
    let search_spec :=
      {| model := model1; name := "my-agent";
         instructions := "Hello, you are helpful agent and can search information from uploaded files";
         tools := ["file_search"]; tool_resources := [obj_id vector_store];
         toolset := [] |} in
    search_tool_agent <- sdk (AgentCreate search_spec) (create_agent w search_spec) ;;
    print ("Created agent for file search, agent ID: " +:+ obj_id search_tool_agent) ;;
    let toolset := [ get_function (obj_id search_tool_agent) creds
                       (config_credential_scopes w) endpoint (config_api_version w) ] in
    enable_auto_function_calls toolset ;;
    model2 <- os_environ environ "MODEL_DEPLOYMENT_NAME" ;;
    let spec :=
      {| model := model2; name := "my-agent";
         instructions := "Hello, you are helpful agent. When asked about Contoso project please send the question to the function tool and return the response.";
         tools := []; tool_resources := []; toolset := toolset |} in
    agent <- sdk (AgentCreate spec) (create_agent w spec) ;;
    print ("Created agent, agent ID: " +:+ obj_id agent) ;;
    thread <- sdk ThreadCreate (threads_create w) ;;
    print ("Created thread, ID: " +:+ obj_id thread) ;;
    message <- sdk (MessageCreate (obj_id thread) "user" "Hello, what Contoso products do you know?")
                   (messages_create w (obj_id thread) "user"
                      "Hello, what Contoso products do you know?") ;;
    print ("Created message, ID: " +:+ obj_id message) ;;
    run <- create_and_process (obj_id thread) (obj_id agent) ;;
    print ("Run finished with status: " +:+ status run) ;;
    (if String.eqb (status run) "failed"
     then print ("Run failed: " +:+ last_error run)
     else ret tt) ;;
    messages <- sdk (MessagesList (obj_id thread) "ListSortOrder.ASCENDING")
                    (messages_list w (obj_id thread) "ListSortOrder.ASCENDING") ;;
    log_messages messages ;;
    sdk (FileDelete (obj_id file)) (files_delete w (obj_id file)) ;;
    print "Deleted file" ;;
    sdk (VectorStoreDelete (obj_id vector_store))
        (vector_stores_delete w (obj_id vector_store)) ;;
    print "Deleted vector store" ;;
    sdk (AgentDelete (obj_id search_tool_agent)) (delete_agent w (obj_id search_tool_agent)) ;;
    print "Deleted agent" ;;
    sdk (AgentDelete (obj_id agent)) (delete_agent w (obj_id agent)) ;;
    print "Deleted agent").

End Script.
End WithTools.

(** ** Sample values *)

Definition sample_token : AccessToken := {| token := "eyJ0"; expires_on := 1762300800 |}.

(** A credential that knows one scope. *)
Definition sample_credential : Credential :=
  {| get_token := fun scope =>
       if String.eqb scope "https://ai.azure.com/.default" then Some sample_token else None |}.

(** An adapter built the way both scripts build it: only the
    asynchronous provider is passed. *)
Definition sample_auth : AzureTokenAuth :=
  AzureTokenAuth_init ["https://ai.azure.com/.default"; "second"] None (Some sample_credential).

(** A request that already carries credentials, under two spellings
    of the key. *)
Definition sample_request : Request :=
  {| method := "POST";
     url := "https://contoso.example/workflows/a2a/agents/asst_1?api-version=v1";
     headers := [ ("Accept", "*/*"); ("authorization", "Basic b2xk");
                  ("Content-Type", "application/json"); ("AUTHORIZATION", "stale") ];
     content := "{}" |}.

Definition sample_request_authorized : Request :=
  {| method := "POST";
     url := "https://contoso.example/workflows/a2a/agents/asst_1?api-version=v1";
     headers := [ ("Accept", "*/*"); ("Authorization", "Bearer eyJ0");
                  ("Content-Type", "application/json") ];
     content := "{}" |}.

(** Everything of a request but what it holds under [Authorization]. *)
Definition rest_of_request (r : Request) : string * string * string * Headers :=
  (method r, url r, content r, headers_without (headers r) "Authorization").

(** ** Notions the properties are stated with *)

Definition bearer (t : AccessToken) : string := "Bearer " +:+ token t.

Definition authorized (request : Request) (t : AccessToken) : Request :=
  with_headers request (headers_setitem (headers request) "Authorization" (bearer t)).

(** What the statements before the [yield] do, by cases on the
    provider, the scopes and the credential's answer. *)
Inductive flow_run (provider : option Credential) (scopes : list string)
    (text : string) (request : Request) : result unit * FlowState -> Prop :=
| run_no_provider :
    provider = None ->
    flow_run provider scopes text request
      (inl (RuntimeError ("No " +:+ text +:+ " token provider were supplied.")),
       {| request_obj := request; flow_log := [] |})
| run_no_scope c :
    provider = Some c -> scopes = [] ->
    flow_run provider scopes text request
      (inl IndexError, {| request_obj := request; flow_log := [] |})
| run_no_token c s rest :
    provider = Some c -> scopes = s :: rest -> get_token c s = None ->
    flow_run provider scopes text request
      (inl ClientAuthenticationError,
       {| request_obj := request; flow_log := [GetToken s] |})
| run_token c s rest t :
    provider = Some c -> scopes = s :: rest -> get_token c s = Some t ->
    flow_run provider scopes text request
      (inr tt,
       {| request_obj := authorized request t;
          flow_log := [GetToken s; SetHeader "Authorization" (bearer t)] |}).

(** The tag of an event: which operation it is, without its arguments. *)
Inductive tag : Type :=
| TEnviron | TNewCredential | TClientEnter | TClientExit | TFilesUpload
| TVectorStoreCreate | TAgentCreate | TEnableAutoFunctionCalls | TThreadCreate
| TMessageCreate | TRunCreateAndProcess | TMessagesList | TFileDelete
| TVectorStoreDelete | TAgentDelete | THttpxEnter | THttpxExit | TAuth | TSend
| TPrint.

#[global] Instance tag_eq_dec : EqDecision tag.
Proof. solve_decision. Defined.

Definition tag_of (e : event) : tag :=
  match e with
  | Environ _ => TEnviron
  | NewCredential => TNewCredential
  | ClientEnter _ => TClientEnter
  | ClientExit => TClientExit
  | FilesUpload _ _ => TFilesUpload
  | VectorStoreCreate _ _ => TVectorStoreCreate
  | AgentCreate _ => TAgentCreate
  | EnableAutoFunctionCalls _ => TEnableAutoFunctionCalls
  | ThreadCreate => TThreadCreate
  | MessageCreate _ _ _ => TMessageCreate
  | RunCreateAndProcess _ _ => TRunCreateAndProcess
  | MessagesList _ _ => TMessagesList
  | FileDelete _ => TFileDelete
  | VectorStoreDelete _ => TVectorStoreDelete
  | AgentDelete _ => TAgentDelete
  | HttpxEnter => THttpxEnter
  | HttpxExit => THttpxExit
  | Auth _ => TAuth
  | Send _ => TSend
  | Print _ => TPrint
  end.




Definition is_run (e : event) : bool :=
  match e with RunCreateAndProcess _ _ => true | _ => false end.

Definition is_send (e : event) : bool :=
  match e with Send _ => true | _ => false end.

Definition is_print (e : event) : bool :=
  match e with Print _ => true | _ => false end.


(** The first element that satisfies [f], with what is before and
    after it. *)
Fixpoint split_at (f : event -> bool) (l : list event)
    : option (list event * event * list event) :=
  match l with
  | [] => None
  | x :: l' =>
      if f x then Some ([], x, l')
      else match split_at f l' with
           | Some (a, y, b) => Some (x :: a, y, b)
           | None => None
           end
  end.

(** The request that [A2AClient.send_message] hands to the HTTP client. *)
Definition post_request (w : World) (url : string) (request : pyval) : Request :=
  {| method := "POST"; url := url; headers := httpx_default_headers w;
     content := json_dumps w request |}.




(** The lines the message loop prints. *)
Fixpoint message_lines (messages : list ThreadMessage) : list event :=
  match messages with
  | [] => []
  | msg :: rest =>
      match last (text_messages msg) with
      | Some last_text => Print (role msg +:+ ": " +:+ last_text) :: message_lines rest
      | None => message_lines rest
      end
  end.

(** The result and the final state of a script started afresh. *)
Definition outcome_of (script : ScriptM unit) : result unit := fst (script Proc0).
Definition log_of (script : ScriptM unit) : list event := log (snd (script Proc0)).

(** The functions a script has registered for automatic calls. *)
Definition registered_functions (script : ScriptM unit) : list Closure :=
  auto_functions (snd (script Proc0)).

Definition raises {A} (r : result A) : bool :=
  match r with inl _ => true | inr _ => false end.


(** ** A sample world in which every call succeeds *)

Definition sample_environ : gmap string string :=
  {[ "PROJECT_ENDPOINT" := "https://contoso.example/api/projects/p1";
     "MODEL_DEPLOYMENT_NAME" := "gpt-4o";
     "AZURE_CLIENT_ID" := "0000" ]}.


(** An a2a answer; its message has fields that are [None]. *)
Definition sample_response : pyval :=
  PDict [ ("id", PStr "1"); ("jsonrpc", PStr "2.0");
          ("result", PDict [ ("kind", PStr "message"); ("messageId", PStr "m-2");
                             ("role", PStr "agent");
                             ("parts", PList [ PDict [ ("kind", PStr "text");
                                                        ("text", PStr "Knock knock.");
                                                        ("metadata", PNone) ] ]);
                             ("contextId", PNone); ("taskId", PNone) ]) ].

Definition sample_world : World :=
  {| DefaultAzureCredential := sample_credential;
     dirname_file := "/srv/samples";
     os_path_join := fun parts => String.concat "/" parts;
     config_credential_scopes := ["https://ai.azure.com/.default"];
     config_api_version := "v1";
     uuid4 := fun n => {| uuid_hex := "0f0e0d0c"; uuid_str := "0f0e-0d0c" |};
     files_upload_and_poll := fun _ _ => inr {| obj_id := "file_1" |};
     vector_stores_create_and_poll := fun _ _ => inr {| obj_id := "vs_1" |};
     create_agent := fun spec =>
       inr {| obj_id := match toolset spec, tools spec with
                        | [], [] => "asst_1"
                        | [], _ => "asst_search"
                        | _, _ => "asst_caller"
                        end |};
     threads_create := inr {| obj_id := "thread_1" |};
     messages_create := fun _ _ _ => inr {| obj_id := "msg_1" |};
     runs_create_and_process := fun _ _ _ =>
       inr {| status := "failed"; last_error := "Rate limit is exceeded." |};
     messages_list := fun _ _ =>
       inr [ {| role := "user";
                text_messages := ["Hello, what Contoso products do you know?"] |};
             {| role := "assistant"; text_messages := [] |} ];
     files_delete := fun _ => inr tt;
     vector_stores_delete := fun _ => inr tt;
     delete_agent := fun _ => inr tt;
     httpx_default_headers := [ ("Accept", "*/*"); ("User-Agent", "python-httpx") ];
     json_dumps := fun _ => "{}";
     repr := fun _ => "{}";
     transport := fun _ => inr sample_response |}.

(** The request the sample world sees from [basic_agent_a2a.py]. *)
Definition sample_sent : Request :=
  {| method := "POST";
     url := "https://contoso.example/api/projects/p1/workflows/a2a/agents/asst_1?api-version=v1";
     headers := [ ("Accept", "*/*"); ("User-Agent", "python-httpx");
                  ("Authorization", "Bearer eyJ0") ];
     content := "{}" |}.

(** ** Notions for the further properties *)

Definition is_set_header (e : flow_event) : bool :=
  match e with SetHeader _ _ => true | GetToken _ => false end.



Definition is_delete (e : event) : bool :=
  match e with
  | FileDelete _ | VectorStoreDelete _ | AgentDelete _ => true
  | _ => false
  end.





(** The request that the closure builds for [message] when it is
    called in state [p], before the adapter sees it. *)
Definition closure_request (w : World) (self : Closure) (message : string) (p : Proc)
    : Request :=
  post_request w (a2a_url (endpoint self) (agent_id self) (api_version self))
    (SendMessageRequest (uuid_str (uuid4 w (S (uuids_drawn p))))
                        (uuid_hex (uuid4 w (uuids_drawn p))) message).

(** * Properties *)

(** ** The header map *)

Section HeaderFacts.
Implicit Types (h : Headers) (key value : string).

Lemma key_matches_refl key value : key_matches key (key, value) = true.
Proof. unfold key_matches. simpl. apply String.eqb_refl. Qed.

Lemma filter_twice {A} (f : A -> bool) (l : list A) :
  List.filter f (List.filter f l) = List.filter f l.
Proof.
  induction l as [|x l IH]; simpl; [reflexivity|].
  destruct (f x) eqn:E; simpl; rewrite ?E, IH; reflexivity.
Qed.

Lemma filter_none {A} (f : A -> bool) (l : list A) :
  List.filter f (List.filter (fun x => negb (f x)) l) = [].
Proof.
  induction l as [|x l IH]; simpl; [reflexivity|].
  destruct (f x) eqn:E; simpl; rewrite ?E; exact IH.
Qed.

(** Setting a key leaves the entries under every other key as they
    were, in their order. *)
Lemma headers_setitem_without h key value :
  headers_without (headers_setitem h key value) key = headers_without h key.
Proof.
  unfold headers_without.
  induction h as [|item h IH]; simpl.
  - rewrite key_matches_refl. reflexivity.
  - destruct (key_matches key item) eqn:E; simpl.
    + rewrite key_matches_refl. simpl. apply filter_twice.
    + rewrite E. simpl. f_equal. exact IH.
Qed.

(** After setting a key it holds the one value set. *)
Lemma headers_setitem_get h key value :
  headers_get_list (headers_setitem h key value) key = [value].
Proof.
  unfold headers_get_list.
  induction h as [|item h IH]; simpl.
  - rewrite key_matches_refl. reflexivity.
  - destruct (key_matches key item) eqn:E; simpl.
    + rewrite key_matches_refl. simpl. rewrite filter_none. reflexivity.
    + rewrite E. exact IH.
Qed.

End HeaderFacts.

(** ** The flows, run symbolically *)

Lemma sync_auth_flow_body_run self request :
  flow_run (token_provider self) (scopes self) "synchronous" request
    (sync_auth_flow_body self {| request_obj := request; flow_log := [] |}).
Proof.
  unfold sync_auth_flow_body, scopes_0.
  destruct (token_provider self) as [c|] eqn:Hp; [|by constructor].
  destruct (scopes self) as [|s rest] eqn:Hs; [by econstructor|].
  cbv [bind _raise_no_token_maybe attr_get_token ret raise call_get_token
       flow_emit modify request_headers_setitem]; simpl.
  destruct (get_token c s) as [t|] eqn:Ht; simpl.
  - by eapply run_token.
  - by eapply run_no_token.
Qed.

Lemma async_auth_flow_body_run self request :
  flow_run (async_token_provider self) (scopes self) "asynchronous" request
    (async_auth_flow_body self {| request_obj := request; flow_log := [] |}).
Proof.
  unfold async_auth_flow_body, scopes_0.
  destruct (async_token_provider self) as [c|] eqn:Hp; [|by constructor].
  destruct (scopes self) as [|s rest] eqn:Hs; [by econstructor|].
  cbv [bind _raise_no_token_maybe attr_get_token ret raise call_get_token
       flow_emit modify request_headers_setitem]; simpl.
  destruct (get_token c s) as [t|] eqn:Ht; simpl.
  - by eapply run_token.
  - by eapply run_no_token.
Qed.

(** The first [next()] of a flow, from what its statements did. *)
Lemma start_flow_run body request :
  start_flow (gen_next body) request =
    match body {| request_obj := request; flow_log := [] |} with
    | (inr _, st') => (Yield (request_obj st'), AtYield, st')
    | (inl e, st') => (Raise e, Finished, st')
    end.
Proof. reflexivity. Qed.

Ltac run_flow self request :=
  lazymatch goal with
  | |- context [sync_auth_flow self] =>
      unfold sync_auth_flow; rewrite ?start_flow_run;
      destruct (sync_auth_flow_body_run self request)
  | |- context [async_auth_flow self] =>
      unfold async_auth_flow; rewrite ?start_flow_run;
      destruct (async_auth_flow_body_run self request)
  end;
  unfold outcome, final_request, final_log; simpl; intros.


(** C2. With the matching credential supplied, a non-empty scopes list
    and the credential answering with a token [t], the flow asks that
    credential for a token for [scopes[0]], then sets the request's
    [Authorization] header to "Bearer " followed by [t]'s value, and then
    yields the request, which carries exactly that value under
    [Authorization]. *)
Theorem C2_bearer_then_yield (self : AzureTokenAuth) (request : Request)
    (c : Credential) (s : string) (rest : list string) (t : AccessToken)
    (Hscopes : scopes self = s :: rest) (Htoken : get_token c s = Some t) :
  (token_provider self = Some c ->
     let x := start_flow (sync_auth_flow self) request in
     final_log x = [GetToken s; SetHeader "Authorization" ("Bearer " +:+ token t)] /\
     outcome x = Yield (final_request x) /\
     headers_get_list (headers (final_request x)) "Authorization"
       = ["Bearer " +:+ token t]) /\
  (async_token_provider self = Some c ->
     let x := start_flow (async_auth_flow self) request in
     final_log x = [GetToken s; SetHeader "Authorization" ("Bearer " +:+ token t)] /\
     outcome x = Yield (final_request x) /\
     headers_get_list (headers (final_request x)) "Authorization"
       = ["Bearer " +:+ token t]).
Proof.
  split; intros Hp x; subst x.
  - run_flow self request; try congruence.
    assert (c0 = c) by congruence. assert (s0 = s) by congruence. subst.
    assert (t0 = t) by congruence. subst.
    split; [reflexivity|]. split; [reflexivity|]. apply headers_setitem_get.
  - run_flow self request; try congruence.
    assert (c0 = c) by congruence. assert (s0 = s) by congruence. subst.
    assert (t0 = t) by congruence. subst.
    split; [reflexivity|]. split; [reflexivity|]. apply headers_setitem_get.
Qed.

Lemma C2_bearer_then_yield_witness :
  let x := start_flow (async_auth_flow sample_auth) sample_request in
  final_log x = [GetToken "https://ai.azure.com/.default";
                 SetHeader "Authorization" "Bearer eyJ0"] /\
  outcome x = Yield (final_request x) /\
  headers_get_list (headers (final_request x)) "Authorization" = ["Bearer eyJ0"].
Proof.
  exact (proj2 (C2_bearer_then_yield sample_auth sample_request sample_credential
                  "https://ai.azure.com/.default" ["second"] sample_token
                  eq_refl eq_refl) eq_refl).
Defined.

(** C7. A request that a flow yields differs from the request the flow
    was given in its [Authorization] header at most: method, URL, body
    and the entries under every other header key are the same, in the
    same order. The yielded request is the request object itself, and a
    flow that is resumed after its [yield] ends without touching it. *)
Theorem C7_only_authorization_changes (self : AzureTokenAuth) (request : Request) :
  (forall r, outcome (start_flow (sync_auth_flow self) request) = Yield r ->
     rest_of_request r = rest_of_request request /\
     r = final_request (start_flow (sync_auth_flow self) request)) /\
  (forall r, outcome (start_flow (async_auth_flow self) request) = Yield r ->
     rest_of_request r = rest_of_request request /\
     r = final_request (start_flow (async_auth_flow self) request)) /\
  (forall st, sync_auth_flow self AtYield st = (StopIteration, Finished, st)) /\
  (forall st, async_auth_flow self AtYield st = (StopIteration, Finished, st)).
Proof.
  split; [|split; [|split; reflexivity]].
  - intros r. run_flow self request; try discriminate.
    match goal with H : Yield _ = Yield _ |- _ => injection H as <- end.
    split; [|reflexivity].
    unfold rest_of_request, authorized. simpl.
    by rewrite headers_setitem_without.
  - intros r. run_flow self request; try discriminate.
    match goal with H : Yield _ = Yield _ |- _ => injection H as <- end.
    split; [|reflexivity].
    unfold rest_of_request, authorized. simpl.
    by rewrite headers_setitem_without.
Qed.

Lemma C7_only_authorization_changes_witness :
  outcome (start_flow (async_auth_flow sample_auth) sample_request)
    = Yield sample_request_authorized /\
  rest_of_request sample_request_authorized = rest_of_request sample_request.
Proof.
  split; [reflexivity|].
  exact (proj1 (proj1 (proj2 (C7_only_authorization_changes sample_auth sample_request))
                  sample_request_authorized eq_refl)).
Defined.

(** C8. When a flow raises the missing-credential [RuntimeError], the
    request object is as it was given, the flow has neither asked for a
    token nor set a header, and the generator is finished: it yields
    nothing, then or later. *)
Theorem C8_raise_leaves_request (self : AzureTokenAuth) (request : Request) (msg : string) :
  (outcome (start_flow (sync_auth_flow self) request) = Raise (RuntimeError msg) ->
     start_flow (sync_auth_flow self) request
       = (Raise (RuntimeError msg), Finished, {| request_obj := request; flow_log := [] |})) /\
  (outcome (start_flow (async_auth_flow self) request) = Raise (RuntimeError msg) ->
     start_flow (async_auth_flow self) request
       = (Raise (RuntimeError msg), Finished, {| request_obj := request; flow_log := [] |})) /\
  (forall st, sync_auth_flow self Finished st = (StopIteration, Finished, st)) /\
  (forall st, async_auth_flow self Finished st = (StopIteration, Finished, st)).
Proof.
  split; [|split; [|split; reflexivity]].
  - run_flow self request; try discriminate.
    match goal with H : Raise _ = Raise _ |- _ => injection H as <- end. reflexivity.
  - run_flow self request; try discriminate.
    match goal with H : Raise _ = Raise _ |- _ => injection H as <- end. reflexivity.
Qed.

Lemma C8_raise_leaves_request_witness :
  start_flow (sync_auth_flow sample_auth) sample_request
    = (Raise (RuntimeError "No synchronous token provider were supplied."), Finished,
       {| request_obj := sample_request; flow_log := [] |}).
Proof.
  exact (proj1 (C8_raise_leaves_request sample_auth sample_request
                  "No synchronous token provider were supplied.") eq_refl).
Defined.

(** C9. Both flows read [scopes[0]] and nothing else of the scopes:
    two adapters that differ only in the scopes after the first behave
    the same, to the last detail. With the matching credential supplied
    and an empty scopes list the flow raises [IndexError], which is not
    the [RuntimeError] of a missing credential, and the credential is
    never asked. *)
Theorem C9_first_scope_only (tp atp : option Credential) (s : string)
    (rest1 rest2 : list string) (c : Credential) (request : Request) :
  start_flow (sync_auth_flow (AzureTokenAuth_init (s :: rest1) tp atp)) request
    = start_flow (sync_auth_flow (AzureTokenAuth_init (s :: rest2) tp atp)) request /\
  start_flow (async_auth_flow (AzureTokenAuth_init (s :: rest1) tp atp)) request
    = start_flow (async_auth_flow (AzureTokenAuth_init (s :: rest2) tp atp)) request /\
  start_flow (sync_auth_flow (AzureTokenAuth_init [] (Some c) atp)) request
    = (Raise IndexError, Finished, {| request_obj := request; flow_log := [] |}) /\
  start_flow (async_auth_flow (AzureTokenAuth_init [] tp (Some c))) request
    = (Raise IndexError, Finished, {| request_obj := request; flow_log := [] |}) /\
  is_runtime_error (Raise IndexError) = false.
Proof.
  repeat split.
Qed.

(** ** The scripts, run symbolically

    Each lemma runs one kind of statement in front of a continuation. *)

Section Stepping.
Context {B : Type}.
Implicit Types (p : Proc) (e : event).

Lemma run_emit e (k : unit -> ScriptM B) p : bind (emit e) k p = k tt (add_log [e] p).
Proof. reflexivity. Qed.

Lemma run_print line (k : unit -> ScriptM B) p :
  bind (print line) k p = k tt (add_log [Print line] p).
Proof. reflexivity. Qed.

Lemma run_ret {A} (a : A) (k : A -> ScriptM B) p : bind (ret a) k p = k a p.
Proof. reflexivity. Qed.

Lemma run_lift {A} (r : result A) (k : A -> ScriptM B) p :
  bind (lift_result r) k p = match r with inl x => (inl x, p) | inr a => k a p end.
Proof. by destruct r. Qed.

Lemma run_sdk {A} e (r : result A) (k : A -> ScriptM B) p :
  bind (sdk e r) k p =
    match r with
    | inl x => (inl x, add_log [e] p)
    | inr a => k a (add_log [e] p)
    end.
Proof. by destruct r. Qed.

Lemma run_environ environ key (k : string -> ScriptM B) p :
  bind (os_environ environ key) k p =
    match environ !! key with
    | None => (inl (KeyError key), add_log [Environ key] p)
    | Some v => k v (add_log [Environ key] p)
    end.
Proof.
  unfold os_environ. cbv [bind emit emit_all modify].
  by destruct (environ !! key).
Qed.

Lemma run_new_credential w (k : Credential -> ScriptM B) p :
  bind (new_credential w) k p = k (DefaultAzureCredential w) (add_log [NewCredential] p).
Proof. reflexivity. Qed.

Lemma run_uuid w (k : UUID -> ScriptM B) p :
  bind (uuid_uuid4 w) k p = k (uuid4 w (uuids_drawn p)) (draw_uuid p).
Proof. reflexivity. Qed.

Lemma run_async_with enter leave (body : ScriptM B) p :
  async_with enter leave body p =
    let '(r, p') := body (add_log [enter] p) in (r, add_log [leave] p').
Proof.
  unfold async_with. cbv [bind emit emit_all modify try_finally].
  by destruct (body (add_log [enter] p)).
Qed.

Lemma run_enable toolset (k : unit -> ScriptM B) p :
  bind (WithTools.enable_auto_function_calls toolset) k p =
    k tt (set_auto_functions toolset (add_log [EnableAutoFunctionCalls toolset] p)).
Proof. reflexivity. Qed.

Lemma run_create_and_process w thread_id agent_id (k : ThreadRun -> ScriptM B) p :
  bind (WithTools.create_and_process w thread_id agent_id) k p =
    match runs_create_and_process w (auto_functions p) thread_id agent_id with
    | inl x => (inl x, add_log [RunCreateAndProcess thread_id agent_id] p)
    | inr a => k a (add_log [RunCreateAndProcess thread_id agent_id] p)
    end.
Proof.
  unfold WithTools.create_and_process. cbv [bind get sdk emit emit_all modify lift_result].
  by destruct (runs_create_and_process w (auto_functions p) thread_id agent_id).
Qed.

End Stepping.

Lemma add_log_nil p : add_log [] p = p.
Proof. destruct p. unfold add_log. simpl. by rewrite app_nil_r. Qed.

Lemma add_log_add_log es1 es2 p : add_log es2 (add_log es1 p) = add_log (es1 ++ es2) p.
Proof. unfold add_log. simpl. by rewrite app_assoc. Qed.

Lemma print_run line p : print line p = (inr tt, add_log [Print line] p).
Proof. reflexivity. Qed.

Lemma lift_run {A} (r : result A) (p : Proc) : lift_result r p = (r, p).
Proof. reflexivity. Qed.

(** The message loop prints [message_lines] and cannot raise. *)
Lemma log_messages_run messages p :
  WithTools.log_messages messages p = (inr tt, add_log (message_lines messages) p).
Proof.
  revert p. induction messages as [|msg rest IH]; intros p; simpl.
  - by rewrite add_log_nil.
  - destruct (last (text_messages msg)) as [t|].
    + rewrite run_print, IH. by rewrite add_log_add_log.
    + rewrite run_ret. apply IH.
Qed.

Lemma run_log_messages {B} messages (k : unit -> ScriptM B) p :
  bind (WithTools.log_messages messages) k p = k tt (add_log (message_lines messages) p).
Proof. unfold bind at 1. by rewrite log_messages_run. Qed.

(** The keyword the scripts pass is not a parameter of [model_dump]. *)
Lemma model_dump_typo response :
  model_dump response dump_keywords = inl (TypeError "excluse_none").
Proof. reflexivity. Qed.

(** Sending through an adapter built as the scripts build it: the
    flow runs first, and only a yielded request reaches the transport. *)
Lemma run_a2a_send {B} w scopes c url request (k : pyval -> ScriptM B) p :
  bind (a2a_send_message w (AzureTokenAuth_init scopes None (Some c)) url request) k p =
    match scopes with
    | [] => (inl IndexError, add_log [] p)
    | s :: _ =>
        match get_token c s with
        | None => (inl ClientAuthenticationError, add_log [Auth (GetToken s)] p)
        | Some t =>
            let sent := authorized (post_request w url request) t in
            let p' := add_log [Send sent]
                        (add_log [Auth (GetToken s);
                                  Auth (SetHeader "Authorization" (bearer t))] p) in
            match transport w sent with
            | inl e => (inl e, p')
            | inr response => k response p'
            end
        end
    end.
Proof.
  destruct scopes as [|s rest]; [reflexivity|].
  unfold a2a_send_message, httpx_send, start_flow, async_auth_flow, gen_next,
    async_auth_flow_body, call_get_token.
  cbv [bind _raise_no_token_maybe attr_get_token scopes_0 ret raise flow_emit modify
       request_headers_setitem AzureTokenAuth_init async_token_provider scopes
       emit_all emit sdk lift_result].
  fold (post_request w url request).
  destruct (get_token c s) as [t|]; [|reflexivity].
  cbv zeta. cbn [request_obj flow_log app map].
  fold (bearer t). fold (authorized (post_request w url request) t).
  by destruct (transport w (authorized (post_request w url request) t)).
Qed.

Ltac script_rewrite H :=
  first [ rewrite model_dump_typo in H
        | rewrite run_new_credential in H
        | rewrite run_environ in H
        | rewrite run_async_with in H
        | rewrite run_a2a_send in H
        | rewrite run_sdk in H
        | rewrite run_print in H
        | rewrite run_enable in H
        | rewrite run_create_and_process in H
        | rewrite run_log_messages in H
        | rewrite run_uuid in H
        | rewrite run_ret in H
        | rewrite run_lift in H
        | rewrite print_run in H
        | rewrite lift_run in H
        | rewrite run_emit in H ].

(** Case analysis on the innermost answer of the world that the run
    is waiting for. *)
Ltac script_branch H :=
  match type of H with
  | context [match ?r with _ => _ end] =>
      lazymatch r with
      | context [match _ with _ => _ end] => fail
      | _ => destruct r eqn:?
      end
  end.

Ltac script_run H :=
  repeat first [ script_rewrite H
               | progress cbv beta iota zeta in H
               | script_branch H; cbv beta iota zeta in H; try discriminate H ].

Ltac compute_log :=
  cbn [fst snd log add_log set_auto_functions draw_uuid auto_functions Proc0 app] in *;
  rewrite <- ?app_assoc in *; cbn [app] in *.

(** ** Lists of events *)

Lemma filter_nil_no_split (f : event -> bool) (l pre : list event) x post :
  List.filter f l = [] -> l = pre ++ x :: post -> f x = true -> False.
Proof.
  intros Hnil -> Hx. rewrite List.filter_app in Hnil. simpl in Hnil. rewrite Hx in Hnil.
  by destruct (List.filter f pre).
Qed.

(** A list splits in one way only around its single [f]-element. *)
Lemma split_at_unique (f : event -> bool) (l a : list event) y b
    (pre : list event) x post :
  split_at f l = Some (a, y, b) -> List.filter f b = [] ->
  l = pre ++ x :: post -> f x = true ->
  pre = a /\ x = y /\ post = b.
Proof.
  revert a pre. induction l as [|z l IH]; intros a pre Hs Hb Hl Hx; [discriminate|].
  simpl in Hs. destruct (f z) eqn:Hz.
  - injection Hs as <- <- <-.
    destruct pre as [|z' pre]; simpl in Hl.
    + by injection Hl as <- <-.
    + injection Hl as <- Hl. exfalso. eapply filter_nil_no_split; eauto.
  - destruct (split_at f l) as [[[a' y'] b']|] eqn:Hs'; [|discriminate].
    injection Hs as <- <- <-.
    destruct pre as [|z' pre]; simpl in Hl.
    + injection Hl as <- <-. congruence.
    + injection Hl as <- Hl.
      by destruct (IH a' pre eq_refl Hb Hl Hx) as (-> & -> & ->).
Qed.

Lemma filter_message_lines (f : event -> bool) messages :
  (forall line, f (Print line) = false) -> List.filter f (message_lines messages) = [].
Proof.
  intros Hf. induction messages as [|msg rest IH]; simpl; [done|].
  destruct (last (text_messages msg)); simpl; by rewrite ?Hf.
Qed.



(** ** What every run of the scripts has in common *)

(** [basic_agent_a2a.py] ends in an exception in every world: a run
    that gets as far as the answer of the remote agent stops at
    [model_dump]. *)
Lemma Basic_main_raises environ w : raises (outcome_of (Basic.main environ w)) = true.
Proof.
  unfold outcome_of.
  destruct (Basic.main environ w Proc0) as [res p] eqn:Hrun.
  unfold Basic.main in Hrun.
  script_run Hrun.
  all: by injection Hrun as <- <-.
Qed.

Lemma get_a2a_response_raises w self message p :
  raises (fst (WithTools.get_a2a_response w self message p)) = true.
Proof.
  destruct (WithTools.get_a2a_response w self message p) as [res p'] eqn:Hrun.
  unfold WithTools.get_a2a_response in Hrun.
  script_run Hrun.
  all: by injection Hrun as <- <-.
Qed.

(** ** The claims about the scripts *)

(** C3 (code at fault). Both scripts pass [excluse_none=True] to
    [model_dump], which has no such parameter: the call raises
    [TypeError] for every response, so nothing is serialized. With the
    keyword spelled [exclude_none] the call would return the dump without
    the [None]-valued fields. In consequence [basic_agent_a2a.py] ends in
    an exception in every world and prints at most the line about the
    agent it created, never a response; and the closure
    [get_a2a_response] returns no value in any world. *)
Theorem C3_dump_keyword_misspelled (environ : gmap string string) (w : World)
    (self : Closure) (message : string) (p : Proc) (response : pyval) :
  model_dump response dump_keywords = inl (TypeError "excluse_none") /\
  model_dump response [("mode", PStr "json"); ("exclude_none", PBool true)]
    = inr (dump true response) /\
  raises (outcome_of (Basic.main environ w)) = true /\
  raises (fst (WithTools.get_a2a_response w self message p)) = true /\
  (List.filter is_print (log_of (Basic.main environ w)) = [] \/
   exists agent, List.filter is_print (log_of (Basic.main environ w))
                 = [Print ("Created agent, agent ID: " +:+ obj_id agent)]) /\
  outcome_of (Basic.main sample_environ sample_world) = inl (TypeError "excluse_none") /\
  map tag_of (log_of (Basic.main sample_environ sample_world))
    = [TNewCredential; TEnviron; TClientEnter; TEnviron; TAgentCreate; TPrint;
       THttpxEnter; TAuth; TAuth; TSend; THttpxExit; TClientExit].
Proof.
  split; [reflexivity|]. split; [reflexivity|].
  split; [apply Basic_main_raises|]. split; [apply get_a2a_response_raises|].
  split; [|split; vm_compute; reflexivity].
  unfold log_of.
  destruct (Basic.main environ w Proc0) as [res p'] eqn:Hrun.
  unfold Basic.main in Hrun.
  script_run Hrun.
  all: injection Hrun as <- <-.
  all: compute_log.
  all: first [ left; reflexivity | right; eexists; reflexivity ].
Qed.




(** C5. In every run of [agent_a2a_with_tools.py] the run is created
    and processed at most once. If that call raises, the exception ends
    the script (only the client is left); if it returns, the script
    prints the status and goes on to list the messages, and between the
    two it prints "Run failed: " with the run's [last_error] exactly when
    the status equals "failed". *)
Theorem C5_run_status_only_reported (environ : gmap string string) (w : World)
    (pre post : list event) (thread_id agent_id : string)
    (Hlog : log_of (WithTools.main environ w)
              = pre ++ RunCreateAndProcess thread_id agent_id :: post) :
  List.filter is_run pre = [] /\ List.filter is_run post = [] /\
  match runs_create_and_process w (registered_functions (WithTools.main environ w))
          thread_id agent_id with
  | inl e => outcome_of (WithTools.main environ w) = inl e /\ post = [ClientExit]
  | inr run =>
      (exists rest,
         post = Print ("Run finished with status: " +:+ status run)
                :: (if String.eqb (status run) "failed"
                    then [Print ("Run failed: " +:+ last_error run)] else [])
                ++ MessagesList thread_id "ListSortOrder.ASCENDING" :: rest) /\
      (post !! 1%nat = Some (Print ("Run failed: " +:+ last_error run))
         <-> status run = "failed")
  end.
Proof.
  unfold log_of, outcome_of, registered_functions in *.
  destruct (WithTools.main environ w Proc0) as [res p] eqn:Hrun.
  unfold WithTools.main in Hrun.
  script_run Hrun.
  all: injection Hrun as <- <-.
  all: compute_log.
  all: try (exfalso; eapply (filter_nil_no_split is_run);
            [ | exact Hlog | reflexivity ]; reflexivity).
  all: eapply (split_at_unique is_run) in Hlog; [ | reflexivity | | reflexivity ].
  all: try (cbn [List.filter is_run];
            by rewrite ?List.filter_app, ?filter_message_lines).
  all: destruct Hlog as (-> & Hx & ->); injection Hx as -> ->.
  all: split; [reflexivity|].
  all: split; [cbn [List.filter is_run];
               by rewrite ?List.filter_app, ?filter_message_lines|].
  all: match goal with H : runs_create_and_process _ _ _ _ = _ |- _ => rewrite H end.
  all: try (split; reflexivity).
  all: match goal with H : String.eqb _ _ = _ |- _ => rewrite H; revert H end.
  all: intros Hfailed; (split; [eexists; reflexivity|]).
  all: first [ apply String.eqb_eq in Hfailed | apply String.eqb_neq in Hfailed ].
  all: split; intros Hq; first [ done | discriminate Hq ].
Qed.

Lemma C5_run_status_only_reported_witness :
  drop 19 (log_of (WithTools.main sample_environ sample_world)) !! 1%nat
    = Some (Print "Run failed: Rate limit is exceeded.").
Proof.
  destruct (C5_run_status_only_reported sample_environ sample_world
              (take 18 (log_of (WithTools.main sample_environ sample_world)))
              (drop 19 (log_of (WithTools.main sample_environ sample_world)))
              "thread_1" "asst_caller" ltac:(vm_compute; reflexivity))
    as (_ & _ & Hrun).
  exact (proj2 (proj2 Hrun) eq_refl).
Defined.



(** * Further properties *)

(** ** The adapter *)

Lemma headers_setitem_setitem h key v1 v2 :
  headers_setitem (headers_setitem h key v1) key v2 = headers_setitem h key v2.
Proof.
  induction h as [|item h IH]; simpl.
  - by rewrite key_matches_refl.
  - destruct (key_matches key item) eqn:E; simpl.
    + rewrite key_matches_refl. by rewrite filter_twice.
    + rewrite E. by rewrite IH.
Qed.

Lemma authorized_authorized request t1 t2 :
  authorized (authorized request t1) t2 = authorized request t2.
Proof.
  unfold authorized, with_headers. simpl. by rewrite headers_setitem_setitem.
Qed.


(** X2. Authorizing again overwrites: a flow run over a request that
    a flow has already yielded ends as it ends over the original request;
    in particular the request yielded the second time carries only the
    second token, and the first token is gone. *)
Theorem X2_reauthorizing_overwrites (self1 self2 : AzureTokenAuth) (request r1 : Request)
    (Hfirst : outcome (start_flow (sync_auth_flow self1) request) = Yield r1 \/
              outcome (start_flow (async_auth_flow self1) request) = Yield r1) :
  outcome (start_flow (sync_auth_flow self2) r1)
    = outcome (start_flow (sync_auth_flow self2) request) /\
  outcome (start_flow (async_auth_flow self2) r1)
    = outcome (start_flow (async_auth_flow self2) request).
Proof.
  assert (Hr1 : exists t, r1 = authorized request t).
  { destruct Hfirst as [H|H]; revert H; run_flow self1 request; try discriminate;
      match goal with H : Yield _ = Yield _ |- _ => injection H as <- end; by eexists. }
  destruct Hr1 as [t1 ->].
  split.
  - unfold sync_auth_flow. rewrite !start_flow_run.
    destruct (sync_auth_flow_body_run self2 request)
      as [Hp|c Hp Hs|c s rest Hp Hs Ht|c s rest t Hp Hs Ht];
    destruct (sync_auth_flow_body_run self2 (authorized request t1))
      as [Hp'|c' Hp' Hs'|c' s' rest' Hp' Hs' Ht'|c' s' rest' t' Hp' Hs' Ht'];
    unfold outcome; simpl; try congruence.
    assert (c' = c) by congruence. subst c'. assert (s' = s) by congruence. subst s'.
    assert (t' = t) by congruence. subst t'. by rewrite authorized_authorized.
  - unfold async_auth_flow. rewrite !start_flow_run.
    destruct (async_auth_flow_body_run self2 request)
      as [Hp|c Hp Hs|c s rest Hp Hs Ht|c s rest t Hp Hs Ht];
    destruct (async_auth_flow_body_run self2 (authorized request t1))
      as [Hp'|c' Hp' Hs'|c' s' rest' Hp' Hs' Ht'|c' s' rest' t' Hp' Hs' Ht'];
    unfold outcome; simpl; try congruence.
    assert (c' = c) by congruence. subst c'. assert (s' = s) by congruence. subst s'.
    assert (t' = t) by congruence. subst t'. by rewrite authorized_authorized.
Qed.

Lemma X2_reauthorizing_overwrites_witness :
  outcome (start_flow (async_auth_flow sample_auth) sample_request_authorized)
    = outcome (start_flow (async_auth_flow sample_auth) sample_request).
Proof.
  exact (proj2 (X2_reauthorizing_overwrites sample_auth sample_auth sample_request
                  sample_request_authorized (or_intror eq_refl))).
Defined.

(** X3. A flow raises one of three exceptions only: the
    [RuntimeError] of the missing provider, [IndexError] for empty
    scopes, or the exception of the credential. Whichever it is, the
    request object is as it was given and no header has been set. *)
Theorem X3_any_raise_leaves_request (self : AzureTokenAuth) (request : Request) (e : exn) :
  (outcome (start_flow (sync_auth_flow self) request) = Raise e ->
     final_request (start_flow (sync_auth_flow self) request) = request /\
     List.filter is_set_header (final_log (start_flow (sync_auth_flow self) request)) = [] /\
     (e = RuntimeError "No synchronous token provider were supplied." \/
      e = IndexError \/ e = ClientAuthenticationError)) /\
  (outcome (start_flow (async_auth_flow self) request) = Raise e ->
     final_request (start_flow (async_auth_flow self) request) = request /\
     List.filter is_set_header (final_log (start_flow (async_auth_flow self) request)) = [] /\
     (e = RuntimeError "No asynchronous token provider were supplied." \/
      e = IndexError \/ e = ClientAuthenticationError)).
Proof.
  split.
  - run_flow self request; try discriminate;
      match goal with H : Raise _ = Raise _ |- _ => injection H as <- end; auto.
  - run_flow self request; try discriminate;
      match goal with H : Raise _ = Raise _ |- _ => injection H as <- end; auto.
Qed.

Lemma X3_any_raise_leaves_request_witness :
  final_request (start_flow (async_auth_flow
                   (AzureTokenAuth_init [] None (Some sample_credential))) sample_request)
    = sample_request.
Proof.
  exact (proj1 (proj2 (X3_any_raise_leaves_request
                         (AzureTokenAuth_init [] None (Some sample_credential))
                         sample_request IndexError) eq_refl)).
Defined.

(** ** The message loop *)




(** ** The closure and the scripts *)


(** X5. A call of the closure [get_a2a_response] draws two uuids,
    leaves the registered functions alone, and adds to the log a block
    that starts with entering the HTTP client and ends with leaving it,
    on every way out. Inside the block nothing is printed and at most one
    request is sent; a request that is sent is the POST of the message to
    the a2a URL of the closure's agent, with the second uuid as its id and
    the first as its message id, authorized with a token. *)
Theorem X5_closure_effects (w : World) (self : Closure) (message : string) (p : Proc) :
  let p' := snd (WithTools.get_a2a_response w self message p) in
  uuids_drawn p' = S (S (uuids_drawn p)) /\
  auto_functions p' = auto_functions p /\
  exists middle,
    log p' = log p ++ HttpxEnter :: middle ++ [HttpxExit] /\
    List.filter is_print middle = [] /\
    (List.filter is_send middle = [] \/
     exists t, List.filter is_send middle
               = [Send (authorized (closure_request w self message p) t)]).
Proof.
  cbv zeta.
  destruct (WithTools.get_a2a_response w self message p) as [res p'] eqn:Hrun.
  unfold WithTools.get_a2a_response in Hrun.
  script_run Hrun.
  all: injection Hrun as <- <-.
  all: cbn [fst snd log add_log set_auto_functions draw_uuid auto_functions uuids_drawn].
  all: split; [reflexivity|]; split; [reflexivity|].
  all: rewrite <- ?app_assoc; cbn [app].
  all: let finish :=
         solve [ (split; [reflexivity|]); (split; [reflexivity|]);
                 first [ left; reflexivity | right; eexists; reflexivity ] ] in
       first [ exists []; finish | eexists [_]; finish
             | eexists [_; _]; finish | eexists [_; _; _]; finish ].
Qed.


(** X7. The request [basic_agent_a2a.py] sends is fixed by the two
    environment variables and the world: both variables are set, the
    agent was created for the model of [MODEL_DEPLOYMENT_NAME], and the
    request is the POST of "Hello, tell me a joke" to the a2a URL under
    [PROJECT_ENDPOINT] for that agent, with the id from the second uuid
    and the message id from the first, authorized with the token the
    default credential gave for the first of the client's scopes. Nothing
    else is sent after it. *)
Theorem X7_basic_request (environ : gmap string string) (w : World)
    (pre post : list event) (r : Request)
    (Hsent : log_of (Basic.main environ w) = pre ++ Send r :: post) :
  exists endpoint model agent scope scopes t,
    environ !! "PROJECT_ENDPOINT" = Some endpoint /\
    environ !! "MODEL_DEPLOYMENT_NAME" = Some model /\
    create_agent w {| model := model; name := "my-agent";
                      instructions := "You are helpful agent";
                      tools := []; tool_resources := []; toolset := [] |} = inr agent /\
    config_credential_scopes w = scope :: scopes /\
    get_token (DefaultAzureCredential w) scope = Some t /\
    r = authorized
          (post_request w (a2a_url endpoint (obj_id agent) (config_api_version w))
             (SendMessageRequest (uuid_str (uuid4 w 1)) (uuid_hex (uuid4 w 0))
                "Hello, tell me a joke")) t /\
    List.filter is_send post = [].
Proof.
  unfold log_of in *.
  destruct (Basic.main environ w Proc0) as [res p] eqn:Hrun.
  unfold Basic.main in Hrun.
  script_run Hrun.
  all: injection Hrun as <- <-.
  all: compute_log.
  all: try (exfalso; eapply (filter_nil_no_split is_send);
            [ | exact Hsent | reflexivity ]; reflexivity).
  all: eapply (split_at_unique is_send) in Hsent; [ | reflexivity | reflexivity | reflexivity ].
  all: destruct Hsent as (-> & Hr & ->); injection Hr as ->.
  all: eexists _, _, _, _, _, _.
  all: repeat split; first [ reflexivity | eassumption ].
Qed.

Lemma X7_basic_request_witness :
  exists endpoint agent t,
    sample_sent = authorized
                    (post_request sample_world
                       (a2a_url endpoint (obj_id agent) (config_api_version sample_world))
                       (SendMessageRequest (uuid_str (uuid4 sample_world 1))
                          (uuid_hex (uuid4 sample_world 0)) "Hello, tell me a joke")) t.
Proof.
  destruct (X7_basic_request sample_environ sample_world
              (take 9 (log_of (Basic.main sample_environ sample_world)))
              (drop 10 (log_of (Basic.main sample_environ sample_world)))
              sample_sent ltac:(vm_compute; reflexivity))
    as (endpoint & model & agent & scope & scopes & t & _ & _ & _ & _ & _ & Hr & _).
  exists endpoint, agent, t. exact Hr.
Defined.


(** X9. In a run of [agent_a2a_with_tools.py] that ends without an
    exception the identifiers flow as follows: the vector store is
    created over the uploaded file; the file-search agent is created
    over that vector store, for the model of [MODEL_DEPLOYMENT_NAME]; the
    one function registered is the closure for the file-search agent,
    with the default credential, the client's scopes and api version and
    the endpoint of [PROJECT_ENDPOINT]; the calling agent is created with
    that function as its toolset, for the same model; the one run is on
    the created thread with the calling agent; and what is deleted is,
    in this order, the file, the vector store, the file-search agent and
    the calling agent that the run created. *)
Theorem X9_with_tools_ids (environ : gmap string string) (w : World)
    (Hdone : outcome_of (WithTools.main environ w) = inr tt) :
  exists endpoint model file vector_store search_tool_agent agent thread,
    environ !! "PROJECT_ENDPOINT" = Some endpoint /\
    environ !! "MODEL_DEPLOYMENT_NAME" = Some model /\
    files_upload_and_poll w
      (os_path_join w [dirname_file w; "sample_data"; "product_info_1.md"])
      "FilePurpose.AGENTS" = inr file /\
    vector_stores_create_and_poll w [obj_id file] "my_vectorstore" = inr vector_store /\
    create_agent w
      {| model := model; name := "my-agent";
         instructions := "Hello, you are helpful agent and can search information from uploaded files";
         tools := ["file_search"]; tool_resources := [obj_id vector_store];
         toolset := [] |} = inr search_tool_agent /\
    registered_functions (WithTools.main environ w)
      = [WithTools.get_function (obj_id search_tool_agent) (DefaultAzureCredential w)
           (config_credential_scopes w) endpoint (config_api_version w)] /\
    create_agent w
      {| model := model; name := "my-agent";
         instructions := "Hello, you are helpful agent. When asked about Contoso project please send the question to the function tool and return the response.";
         tools := []; tool_resources := [];
         toolset := registered_functions (WithTools.main environ w) |} = inr agent /\
    threads_create w = inr thread /\
    List.filter is_run (log_of (WithTools.main environ w))
      = [RunCreateAndProcess (obj_id thread) (obj_id agent)] /\
    List.filter is_delete (log_of (WithTools.main environ w))
      = [FileDelete (obj_id file); VectorStoreDelete (obj_id vector_store);
         AgentDelete (obj_id search_tool_agent); AgentDelete (obj_id agent)].
Proof.
  unfold log_of, outcome_of, registered_functions in *.
  destruct (WithTools.main environ w Proc0) as [res p] eqn:Hrun.
  simpl in Hdone. subst res.
  unfold WithTools.main in Hrun.
  script_run Hrun.
  all: injection Hrun as <-.
  all: compute_log.
  all: eexists _, _, _, _, _, _, _.
  all: repeat match goal with H : Some _ = Some _ |- _ => injection H as <- end.
  all: cbn [List.filter is_run is_delete];
       rewrite ?List.filter_app, ?filter_message_lines by reflexivity;
       cbn [List.filter is_run is_delete app].
  all: repeat split; first [ reflexivity | eassumption ].
Qed.

Lemma X9_with_tools_ids_witness :
  List.filter is_delete (log_of (WithTools.main sample_environ sample_world))
    = [FileDelete "file_1"; VectorStoreDelete "vs_1";
       AgentDelete "asst_search"; AgentDelete "asst_caller"].
Proof.
  destruct (X9_with_tools_ids sample_environ sample_world ltac:(vm_compute; reflexivity))
    as (endpoint & model & file & vector_store & search_tool_agent & agent & thread
        & _ & _ & Hfile & Hvs & Hsearch & Hreg & Hagent & _ & _ & Hdel).
  rewrite Hdel. vm_compute in Hfile, Hvs, Hsearch, Hreg, Hagent.
  injection Hfile as <-. injection Hvs as <-.
  injection Hsearch as <-. injection Hagent as <-. reflexivity.
Defined.
